(** * SidebarButton.vue: the sidebar button of the annotation front end

    A shallow embedding of
    [src/frontend/components/commons/sidebar/SidebarButton.vue]: the props
    declaration of the script block, the render function of the template
    and the click listener, followed by the properties of the component.

    Strings are Rocq strings.  [toLowerCase] is modelled on the ASCII
    letters, which covers every literal of the component; characters above
    127 are left as they are, so what a property says of the lowercase
    form of an arbitrary string is said of ASCII strings ([isAscii]). *)

From Stdlib Require Import Bool List String Ascii Arith Lia.
Import ListNotations.
Open Scope string_scope.
Open Scope list_scope.
Set Warnings "-register-all".

(** ** The JavaScript built-ins the component calls *)
Module Js.

(** One character of [String.prototype.toLowerCase]: 'A'..'Z' (65..90)
    move to 'a'..'z'. *)
Definition lowerChar (c : ascii) : ascii :=
  let n := nat_of_ascii c in
  if ((65 <=? n) && (n <=? 90))%nat then ascii_of_nat (n + 32) else c.

(** [s.toLowerCase()]: a new string, the receiver is left alone. *)
Fixpoint toLowerCase (s : string) : string :=
  match s with
  | EmptyString => EmptyString
  | String c rest => String (lowerChar c) (toLowerCase rest)
  end.

(** [arr.includes(searchElement)] on an array of strings: a scan from
    index 0 that stops at the first element equal to [searchElement]. *)
Fixpoint includes (arr : list string) (searchElement : string) : bool :=
  match arr with
  | [] => false
  | x :: rest =>
      if String.eqb x searchElement then true else includes rest searchElement
  end.

End Js.

(** ** What the component uses of the host framework *)
Module Vue.

(** An event sent to the parent with [$emit(name, ...args)]. *)
Record Event : Type := mkEvent {
  name : string;
  args : list string
}.

Section Instance.

(** The props type of the component the instance belongs to. *)
Variable P : Type.

(** A component instance: the props the parent handed over and the
    events emitted so far, oldest first. *)
Record Instance : Type := mkInstance {
  props : P;
  emitted : list Event
}.

(** Code that runs against an instance: it may read and change it. *)
Definition M (A : Type) : Type := Instance -> A * Instance.

Definition ret {A : Type} (a : A) : M A := fun vm => (a, vm).

Definition bind {A B : Type} (m : M A) (k : A -> M B) : M B :=
  fun vm => let (a, vm') := m vm in k a vm'.

(** Reading the props of [this]. *)
Definition getProps : M P := fun vm => (props vm, vm).

(** [$emit(name, ...args)]: one more event on the outbound log. *)
Definition emit (event : string) (payload : list string) : M unit :=
  fun vm =>
    (tt, {| props := props vm;
            emitted := emitted vm ++ [mkEvent event payload] |}).

(** The data object of an element: [staticClass] for a plain [class]
    attribute, [class] for a [:class] binding, [attrs] for attributes
    ([None] is the value [null]) and [on] for the listeners. *)
Record VNodeData : Type := mkVNodeData {
  staticClass : option string;
  class : list string;
  attrs : list (string * option string);
  on : list (string * M unit)
}.

Inductive VNode : Type :=
| Element (tag : string) (data : VNodeData) (children : list VNode).

Definition tagOf (v : VNode) : string :=
  match v with Element t _ _ => t end.

Definition dataOf (v : VNode) : VNodeData :=
  match v with Element _ d _ => d end.

Definition childrenOf (v : VNode) : list VNode :=
  match v with Element _ _ cs => cs end.

(** The node and everything below it, in document order. *)
Fixpoint nodes (v : VNode) : list VNode :=
  match v with
  | Element _ _ cs =>
      v :: (fix all (l : list VNode) : list VNode :=
              match l with
              | [] => []
              | c :: l' => nodes c ++ all l'
              end) cs
  end.

(** Every class entry of an element: the static one, then the bound
    ones. *)
Definition classEntries (v : VNode) : list string :=
  match staticClass (dataOf v) with
  | Some c => c :: class (dataOf v)
  | None => class (dataOf v)
  end.

(** The bound value of an attribute, if the element binds it. *)
Fixpoint lookupAttr (key : string) (l : list (string * option string))
  : option (option string) :=
  match l with
  | [] => None
  | (k, v) :: rest => if String.eqb k key then Some v else lookupAttr key rest
  end.

(** The attribute as the document shows it: an attribute bound to
    [null] is not set on the element. *)
Definition attribute (key : string) (v : VNode) : option string :=
  match lookupAttr key (attrs (dataOf v)) with
  | Some (Some s) => Some s
  | _ => None
  end.

(** Running the listeners of [v] for one occurrence of [event]. *)
Fixpoint runListeners (event : string) (l : list (string * M unit)) : M unit :=
  match l with
  | [] => ret tt
  | (e, h) :: rest =>
      if String.eqb e event
      then bind h (fun _ => runListeners event rest)
      else runListeners event rest
  end.

Definition dispatch (event : string) (v : VNode) : M unit :=
  runListeners event (on (dataOf v)).

End Instance.

Arguments mkInstance {P}.
Arguments props {P}.
Arguments emitted {P}.
Arguments ret {P A}.
Arguments bind {P A B}.
Arguments getProps {P}.
Arguments emit {P}.
Arguments mkVNodeData {P}.
Arguments staticClass {P}.
Arguments class {P}.
Arguments attrs {P}.
Arguments on {P}.
Arguments Element {P}.
Arguments tagOf {P}.
Arguments dataOf {P}.
Arguments childrenOf {P}.
Arguments nodes {P}.
Arguments classEntries {P}.
Arguments attribute {P}.
Arguments dispatch {P}.

(** What the prop check reports; it never stops the render. *)
Inductive Warning : Type :=
| InvalidProp (prop : string).

End Vue.

Notation "x <- m ;; k" := (Vue.bind m (fun x => k))
  (at level 61, m at next level, right associativity).

(** ** The component *)
Module SidebarButton.
Import Js Vue.

(** The props of the script block, lines 27-51. *)
Record Props : Type := mkProps {
  activeView : list string;
  tooltip : string;
  id : string;
  icon : string;
  type : string
}.

(** What a parent passes: [activeView] is the one prop that is not
    [required]. *)
Record PropsData : Type := mkPropsData {
  given_activeView : option (list string);
  given_tooltip : string;
  given_id : string;
  given_icon : string;
  given_type : string
}.

(** [default: () => []] of [activeView]. *)
Definition activeView_default (_ : unit) : list string := [].

(** [validator] of [type]:
    [["Mode", "Metrics", "Refresh"].includes(value)]. *)
Definition type_validator (value : string) : bool :=
  includes ["Mode"; "Metrics"; "Refresh"] value.

(** Modelled from the spec: the framework's prop check, which is not
    part of the component file.  An absent [activeView] takes the value of
    its default factory; a [type] the validator refuses is reported as a
    warning and kept as it is. *)
Definition initProps (d : PropsData) : Props * list Warning :=
  ({| activeView := match given_activeView d with
                    | Some a => a
                    | None => activeView_default tt
                    end;
      tooltip := given_tooltip d;
      id := given_id d;
      icon := given_icon d;
      type := given_type d |},
   if type_validator (given_type d) then [] else [InvalidProp "type"]).

(** [:class="[type.toLowerCase(), activeView.includes(id) ? 'active' : '']"] *)
Definition classBinding (p : Props) : list string :=
  [ toLowerCase (type p);
    if includes (activeView p) (id p) then "active" else "" ].

(** [:data-title="!activeView.includes(id) ? tooltip : null"] *)
Definition dataTitle (p : Props) : option string :=
  if negb (includes (activeView p) (id p)) then Some (tooltip p) else None.

(** [@click="$emit('button-action', id)"]; [id] is read when the
    listener runs. *)
Definition onClick : M Props unit :=
  p <- getProps ;; emit "button-action" [id p].

(** [<svgicon :name="icon"></svgicon>] *)
Definition iconGlyph (p : Props) : VNode Props :=
  Element "svgicon"
    {| staticClass := None; class := [];
       attrs := [("name", Some (icon p))]; on := [] |}
    [].

(** The template, lines 2-16.  Lines 9-14 are a comment of the
    template and produce no node. *)
Definition template (p : Props) : VNode Props :=
  Element "a"
    {| staticClass := Some "sidebar-button";
       class := classBinding p;
       attrs := [("href", Some "#"); ("data-title", dataTitle p)];
       on := [("click", onClick)] |}
    [iconGlyph p].

(** One render pass of an instance. *)
Definition render : M Props (VNode Props) :=
  p <- getProps ;; ret (template p).

(** One click on a rendered control. *)
Definition click (v : VNode Props) : M Props unit := dispatch "click" v.

(** Creating the instance from what the parent passes and rendering it
    once: the warnings of the prop check and the rendered element. *)
Definition mount (d : PropsData) : list Warning * VNode Props :=
  let (p, ws) := initProps d in
  (ws, fst (render {| props := p; emitted := [] |})).

End SidebarButton.

(** ** Inputs and predicates the properties are stated with *)
Import Js Vue SidebarButton.

(** Scenario 5 of the specification: an active button of type Mode. *)
Definition annotate_props : Props :=
  {| activeView := ["annotate"; "metrics"]; tooltip := "Annotate";
     id := "annotate"; icon := "annotate-view"; type := "Mode" |}.

(** Scenario 6 of the specification: an inactive button of type
    Refresh. *)
Definition refresh_props : Props :=
  {| activeView := []; tooltip := "Refresh";
     id := "refresh"; icon := "refresh"; type := "Refresh" |}.

(** A [type] outside the three the validator accepts. *)
Definition shouting_props : Props :=
  {| activeView := []; tooltip := "Explore";
     id := "explore"; icon := "explore-view"; type := "ACTIVE" |}.

(** The help indicator of template lines 9-14: an [svgicon] element with
    [class="sidebar-button__icon-help"]. *)
Definition isHelpIcon (v : VNode Props) : bool :=
  String.eqb (tagOf v) "svgicon"
  && includes (classEntries v) "sidebar-button__icon-help".

(** The same props with another [activeView]. *)
Definition withActiveView (p : Props) (av : list string) : Props :=
  {| activeView := av; tooltip := tooltip p; id := id p;
     icon := icon p; type := type p |}.

(** The same props with another [tooltip]. *)
Definition withTooltip (p : Props) (tip : string) : Props :=
  {| activeView := activeView p; tooltip := tip; id := id p;
     icon := icon p; type := type p |}.

(** What happens to a mounted button while its props stay as they are:
    the framework renders it again, or the user clicks the anchor that is on
    screen. *)
Inductive UserStep : Type :=
| Rerender
| Click.

(** A run of such steps from the element [v] on screen and the instance
    [vm]: the element on screen at the end, and the instance. *)
Fixpoint session (steps : list UserStep) (v : VNode Props)
  (vm : Instance Props) : VNode Props * Instance Props :=
  match steps with
  | [] => (v, vm)
  | Rerender :: rest => let (v', vm') := render vm in session rest v' vm'
  | Click :: rest => let (_, vm') := click v vm in session rest v vm'
  end.

(** The number of clicks of a run. *)
Fixpoint clicks (steps : list UserStep) : nat :=
  match steps with
  | [] => 0
  | Rerender :: rest => clicks rest
  | Click :: rest => S (clicks rest)
  end.

(** An ASCII capital letter, 'A'..'Z'. *)
Definition isUpper (c : ascii) : bool :=
  let n := nat_of_ascii c in ((65 <=? n) && (n <=? 90))%nat.

(** A string with an ASCII capital letter in it. *)
Fixpoint hasUpper (s : string) : bool :=
  match s with
  | EmptyString => false
  | String c rest => isUpper c || hasUpper rest
  end.


(** The two ASCII alphabets, letter by letter. *)
Definition capitals : string := "ABCDEFGHIJKLMNOPQRSTUVWXYZ".
Definition smalls : string := "abcdefghijklmnopqrstuvwxyz".

(** The place of the first [c] in [s]. *)
Fixpoint indexOf (c : ascii) (s : string) : option nat :=
  match s with
  | EmptyString => None
  | String d rest =>
      if Ascii.eqb d c then Some 0 else option_map S (indexOf c rest)
  end.

(** The small letter of a capital, the one at the same place of the
    alphabet; any other character is its own. *)
Definition smallLetter (c : ascii) : ascii :=
  match indexOf c capitals with
  | Some k => match String.get k smalls with
              | Some d => d
              | None => c
              end
  | None => c
  end.

(** [t] is the lowercase form of the ASCII string [s], in the words of
    the specification, not of the code: as long as [s], with the small
    letter of every character of [s] at the same place. *)
Definition lowercased (s t : string) : Prop :=
  String.length t = String.length s /\
  forall i c, String.get i s = Some c -> String.get i t = Some (smallLetter c).

(** ** Properties *)

(** *** The built-ins *)

Lemma includes_In (arr : list string) (s : string) :
  includes arr s = true <-> In s arr.
Proof.
  induction arr as [|x rest IH]; simpl.
  - split; [discriminate | tauto].
  - destruct (String.eqb_spec x s) as [Heq | Hne].
    + split; auto.
    + rewrite IH. split; [auto | intros [H | H]; [contradiction | exact H]].
Qed.

Lemma includes_not_In (arr : list string) (s : string) :
  includes arr s = false <-> ~ In s arr.
Proof.
  rewrite <- includes_In. destruct (includes arr s); split; congruence.
Qed.

Lemma includes_ext (a b : list string) (s : string) :
  (forall x, In x a <-> In x b) -> includes a s = includes b s.
Proof.
  intros Hab.
  destruct (includes b s) eqn:Hb.
  - apply includes_In, Hab, includes_In, Hb.
  - apply includes_not_In. intros Ha.
    apply includes_not_In in Hb. apply Hb, Hab, Ha.
Qed.

Lemma type_validator_spec (value : string) :
  type_validator value = true <->
  value = "Mode" \/ value = "Metrics" \/ value = "Refresh".
Proof.
  unfold type_validator. rewrite includes_In. simpl.
  split.
  - intros [H | [H | [H | []]]]; auto.
  - intros [H | [H | H]]; auto.
Qed.

Lemma valid_type_not_active (value : string) :
  type_validator value = true -> toLowerCase value <> "active".
Proof.
  intros H. apply type_validator_spec in H.
  destruct H as [H | [H | H]]; subst value; discriminate.
Qed.

Lemma lowerChar_smallLetter (c : ascii) : lowerChar c = smallLetter c.
Proof.
  destruct c as [b0 b1 b2 b3 b4 b5 b6 b7].
  destruct b0, b1, b2, b3, b4, b5, b6, b7; reflexivity.
Qed.

Lemma toLowerCase_length (s : string) :
  String.length (toLowerCase s) = String.length s.
Proof.
  induction s as [|c rest IH]; simpl; [reflexivity | now rewrite IH].
Qed.

Lemma toLowerCase_get (s : string) :
  forall i c, String.get i s = Some c ->
              String.get i (toLowerCase s) = Some (lowerChar c).
Proof.
  induction s as [|d rest IH]; intros i c Hget.
  - discriminate Hget.
  - destruct i as [|i]; simpl in *.
    + injection Hget as ->. reflexivity.
    + apply IH, Hget.
Qed.

Lemma toLowerCase_lowercased (s : string) : lowercased s (toLowerCase s).
Proof.
  split.
  - apply toLowerCase_length.
  - intros i c Hget. rewrite <- lowerChar_smallLetter.
    apply toLowerCase_get, Hget.
Qed.

(** *** The monad *)

Lemma render_run (vm : Instance Props) :
  render vm = (template (props vm), vm).
Proof. reflexivity. Qed.

Lemma onClick_run (vm : Instance Props) :
  onClick vm =
  (tt, {| props := props vm;
          emitted := emitted vm ++ [mkEvent "button-action" [id (props vm)]] |}).
Proof. reflexivity. Qed.

Lemma click_template_run (p : Props) (vm : Instance Props) :
  click (template p) vm = onClick vm.
Proof.
  unfold click, dispatch. simpl.
  unfold bind, ret. destruct (onClick vm) as [[] vm']. reflexivity.
Qed.

(** *** The scenarios of the specification *)

Example annotate_scenario :
  class (dataOf (template annotate_props)) = ["mode"; "active"] /\
  attribute "data-title" (template annotate_props) = None /\
  childrenOf (template annotate_props) = [iconGlyph annotate_props] /\
  emitted (snd (click (template annotate_props)
                  {| props := annotate_props; emitted := [] |}))
  = [mkEvent "button-action" ["annotate"]].
Proof. repeat split. Qed.

Example refresh_scenario :
  class (dataOf (template refresh_props)) = ["refresh"; ""] /\
  attribute "data-title" (template refresh_props) = Some "Refresh".
Proof. split; reflexivity. Qed.

(** *** The class binding *)

(** The validator only warns, so a [type] outside its three values can
    reach the template: one that lowercases to "active" puts "active" in the
    computed class list although [activeView] is empty. *)
Lemma active_class_of_shouting_type :
  ~ (forall p : Props,
       In "active" (class (dataOf (template p))) <-> In (id p) (activeView p)).
Proof.
  intros H.
  destruct (H shouting_props) as [Hin _].
  apply Hin. simpl. left. reflexivity.
Qed.

Lemma active_class_iff_when_type_is_not_active (p : Props) :
  toLowerCase (type p) <> "active" ->
  (In "active" (class (dataOf (template p))) <-> In (id p) (activeView p)).
Proof.
  intros Hty. simpl.
  destruct (includes (activeView p) (id p)) eqn:Hinc.
  - apply includes_In in Hinc. split; auto.
  - apply includes_not_In in Hinc. split.
    + intros [H | [H | []]]; [contradiction | discriminate].
    + intros H. contradiction.
Qed.

(** C1: for every [id] and [activeView], with a [type] the validator
    accepts, the computed class list of the rendered element contains
    "active" if and only if [activeView] contains [id]. *)
Theorem active_class_iff_for_valid_type (p : Props) :
  type_validator (type p) = true ->
  (In "active" (class (dataOf (template p))) <-> In (id p) (activeView p)).
Proof.
  intros Hvalid.
  apply active_class_iff_when_type_is_not_active.
  apply valid_type_not_active, Hvalid.
Qed.

Lemma active_class_iff_for_valid_type_witness :
  type_validator (type annotate_props) = true /\
  (In "active" (class (dataOf (template annotate_props)))
   <-> In (id annotate_props) (activeView annotate_props)) /\
  type_validator (type refresh_props) = true /\
  (In "active" (class (dataOf (template refresh_props)))
   <-> In (id refresh_props) (activeView refresh_props)).
Proof.
  split; [reflexivity | split].
  - exact (active_class_iff_for_valid_type annotate_props eq_refl).
  - split; [reflexivity | ].
    exact (active_class_iff_for_valid_type refresh_props eq_refl).
Defined.

(** C2: for a [type] among Mode, Metrics and Refresh the computed class
    list is [[lowercase(type), isActive ? "active" : ""]]: its first entry
    is "mode" for Mode, "metrics" for Metrics and "refresh" for Refresh, its
    second entry is "active" when [activeView] contains [id] and empty when
    it does not, and the lowercase type occurs in it exactly once. *)
Theorem class_list_of_valid_type (p : Props) :
  In (type p) ["Mode"; "Metrics"; "Refresh"] ->
  class (dataOf (template p))
  = [toLowerCase (type p);
     if includes (activeView p) (id p) then "active" else ""] /\
  (includes (activeView p) (id p) = true <-> In (id p) (activeView p)) /\
  In (toLowerCase (type p)) ["mode"; "metrics"; "refresh"] /\
  count_occ string_dec (class (dataOf (template p))) (toLowerCase (type p)) = 1 /\
  (exists lower state,
      class (dataOf (template p)) = [lower; state] /\
      ((type p = "Mode" /\ lower = "mode") \/
       (type p = "Metrics" /\ lower = "metrics") \/
       (type p = "Refresh" /\ lower = "refresh")) /\
      ((In (id p) (activeView p) /\ state = "active") \/
       (~ In (id p) (activeView p) /\ state = "")) /\
      lowercased (type p) lower /\
      count_occ string_dec [lower; state] lower = 1).
Proof.
  intros Hty.
  split; [reflexivity | split; [apply includes_In | ]].
  assert (Hstate :
            (In (id p) (activeView p)
             /\ (if includes (activeView p) (id p) then "active" else "")
                = "active")
            \/ (~ In (id p) (activeView p)
                /\ (if includes (activeView p) (id p) then "active" else "")
                   = "")).
  { destruct (includes (activeView p) (id p)) eqn:Hinc.
    - left. split; [apply includes_In, Hinc | reflexivity].
    - right. split; [apply includes_not_In, Hinc | reflexivity]. }
  pose proof (toLowerCase_lowercased (type p)) as Hlow.
  assert (Hmap : (type p = "Mode" /\ toLowerCase (type p) = "mode") \/
                 (type p = "Metrics" /\ toLowerCase (type p) = "metrics") \/
                 (type p = "Refresh" /\ toLowerCase (type p) = "refresh")).
  { simpl in Hty. destruct Hty as [H | [H | [H | []]]]; rewrite <- H;
      [left | right; left | right; right]; split; reflexivity. }
  assert (Hin : In (toLowerCase (type p)) ["mode"; "metrics"; "refresh"]).
  { destruct Hmap as [[_ H] | [[_ H] | [_ H]]]; rewrite H; simpl; tauto. }
  assert (Hcount :
            count_occ string_dec
              [toLowerCase (type p);
               if includes (activeView p) (id p) then "active" else ""]
              (toLowerCase (type p)) = 1).
  { destruct Hmap as [[_ H] | [[_ H] | [_ H]]]; rewrite H;
      destruct (includes (activeView p) (id p)); reflexivity. }
  split; [exact Hin | split; [exact Hcount | ]].
  exists (toLowerCase (type p)),
         (if includes (activeView p) (id p) then "active" else "").
  split; [reflexivity | ].
  split; [exact Hmap | ].
  split; [exact Hstate | ].
  split; [exact Hlow | exact Hcount].
Qed.

Lemma class_list_of_valid_type_witness :
  In (type annotate_props) ["Mode"; "Metrics"; "Refresh"] /\
  class (dataOf (template annotate_props)) = ["mode"; "active"] /\
  count_occ string_dec (class (dataOf (template annotate_props))) "mode" = 1.
Proof.
  assert (Hty : In (type annotate_props) ["Mode"; "Metrics"; "Refresh"])
    by (simpl; left; reflexivity).
  split; [exact Hty | ].
  destruct (class_list_of_valid_type annotate_props Hty) as [Hc [_ [_ [Hn _]]]].
  split; [exact Hc | exact Hn].
Defined.

(** *** The tooltip *)

(** C3: the [data-title] attribute carries the tooltip exactly when
    [activeView] does not contain [id]; when it does, the binding is
    [null] and the element has no such attribute. *)
Theorem tooltip_hint_iff_inactive (p : Props) :
  let v := template p in
  (attribute "data-title" v <> None <-> ~ In (id p) (activeView p)) /\
  (attribute "data-title" v = Some (tooltip p) <-> ~ In (id p) (activeView p)) /\
  (lookupAttr "data-title" (attrs (dataOf v)) = Some None
   <-> In (id p) (activeView p)).
Proof.
  unfold attribute. simpl. unfold dataTitle.
  destruct (includes (activeView p) (id p)) eqn:Hinc; simpl.
  - apply includes_In in Hinc.
    repeat split; intros; try congruence; try contradiction; auto.
  - apply includes_not_In in Hinc.
    repeat split; intros; try congruence; try contradiction; auto.
Qed.

(** *** The click *)

(** C4: one click on the rendered control appends exactly one event
    "button-action" with payload [id] to what the instance has emitted,
    whatever [activeView] holds, and changes nothing else of the
    instance. *)
Theorem click_emits_button_action (vm : Instance Props) :
  click (fst (render vm)) (snd (render vm))
  = (tt, {| props := props vm;
            emitted := emitted vm
                       ++ [mkEvent "button-action" [id (props vm)]] |}).
Proof.
  rewrite render_run. cbn [fst snd].
  rewrite click_template_run. apply onClick_run.
Qed.

(** *** The prop check *)


(** *** The help indicator *)

(** C6, as stated, fails: for an active button of type Mode, where the
    indicator would be visible, no node of the rendered markup is a help
    indicator. *)
Lemma help_icon_counterexample :
  ~ (exists n, In n (nodes (template annotate_props)) /\ isHelpIcon n = true).
Proof.
  intros [n [Hin Hhelp]]. simpl in Hin.
  destruct Hin as [H | [H | []]]; subst n; discriminate Hhelp.
Qed.

(** C6 (amended): the rendered markup holds no help indicator: for every
    props value the anchor has one child, the glyph named by [icon], and no
    node of the markup is a help indicator. *)
Theorem no_help_icon_rendered (p : Props) :
  childrenOf (template p) = [iconGlyph p] /\
  nodes (template p) = [template p; iconGlyph p] /\
  forallb (fun n => negb (isHelpIcon n)) (nodes (template p)) = true.
Proof.
  repeat split.
Qed.

(** *** The default of activeView *)

(** C7: when the parent passes no [activeView] the component is mounted
    exactly as with [activeView = []]: the prop is the empty sequence, the
    active entry of the class list is empty and the tooltip is shown. *)
Theorem activeView_defaults_to_empty (tip i ic ty : string) :
  let d := mkPropsData None tip i ic ty in
  activeView (fst (initProps d)) = [] /\
  mount d = mount (mkPropsData (Some []) tip i ic ty) /\
  class (dataOf (snd (mount d))) = [toLowerCase ty; ""] /\
  attribute "data-title" (snd (mount d)) = Some tip.
Proof.
  cbv zeta. unfold mount, initProps. simpl.
  destruct (type_validator ty); repeat split.
Qed.

(** *** Props are read, never written *)

(** C8: a render pass returns the instance as it found it, a click
    leaves the props as they were, and the rendered element is a function
    of the props alone. *)
Theorem props_never_mutated (vm : Instance Props) :
  snd (render vm) = vm /\
  props (snd (click (fst (render vm)) vm)) = props vm /\
  fst (render vm) = template (props vm) /\
  (forall vm' : Instance Props,
      props vm' = props vm -> fst (render vm') = fst (render vm)).
Proof.
  rewrite render_run. cbn [fst snd].
  split; [reflexivity | split; [ | split; [reflexivity | ]]].
  - rewrite click_template_run, onClick_run. reflexivity.
  - intros vm' Hsame. rewrite render_run. cbn [fst]. rewrite Hsame. reflexivity.
Qed.

(** *** Order and repetition in activeView *)

(** C9: two [activeView] sequences with the same elements, in any order
    and with any repetition, give the same rendered element. *)
Theorem render_depends_on_membership_only (p : Props) (av : list string) :
  (forall x, In x (activeView p) <-> In x av) ->
  template (withActiveView p av) = template p.
Proof.
  intros Hsame.
  unfold template, classBinding, dataTitle, iconGlyph. simpl.
  rewrite (includes_ext (activeView p) av (id p) Hsame).
  reflexivity.
Qed.

Lemma render_depends_on_membership_only_witness :
  (forall x, In x (activeView annotate_props)
             <-> In x ["metrics"; "annotate"; "metrics"]) /\
  template (withActiveView annotate_props ["metrics"; "annotate"; "metrics"])
  = template annotate_props.
Proof.
  assert (Hsame : forall x, In x (activeView annotate_props)
                            <-> In x ["metrics"; "annotate"; "metrics"])
    by (intros x; simpl; tauto).
  split; [exact Hsame | ].
  exact (render_depends_on_membership_only annotate_props
           ["metrics"; "annotate"; "metrics"] Hsame).
Defined.

(** *** The fixed parts of the anchor *)

(** C10: for every props value the anchor has the static class
    "sidebar-button" before its two computed entries, three class entries
    in all, [href="#"], and one child, the glyph whose name is the [icon]
    prop. *)
Theorem static_parts_always_rendered (p : Props) :
  let v := template p in
  tagOf v = "a" /\
  staticClass (dataOf v) = Some "sidebar-button" /\
  classEntries v
  = ["sidebar-button"; toLowerCase (type p);
     if includes (activeView p) (id p) then "active" else ""] /\
  List.length (class (dataOf v)) = 2 /\
  List.length (classEntries v) = 3 /\
  attribute "href" v = Some "#" /\
  childrenOf v = [iconGlyph p] /\
  tagOf (iconGlyph p) = "svgicon" /\
  attribute "name" (iconGlyph p) = Some (icon p).
Proof.
  cbv zeta. repeat split.
Qed.


(** ** Further properties of the component *)

(** *** activeView is consulted for the button's own id only *)

(** X1: the rendered element depends on [activeView] through the
    membership of the button's own [id] alone: another [activeView] that
    agrees on that one membership gives the same element, whatever other
    ids it holds. *)
Theorem render_depends_on_own_id_only (p : Props) (av : list string) :
  (In (id p) av <-> In (id p) (activeView p)) ->
  template (withActiveView p av) = template p.
Proof.
  intros Hown.
  assert (Hinc : includes av (id p) = includes (activeView p) (id p)).
  { destruct (includes (activeView p) (id p)) eqn:Hp.
    - apply includes_In, Hown, includes_In, Hp.
    - apply includes_not_In. apply includes_not_In in Hp.
      intros Hav. apply Hp, Hown, Hav. }
  unfold template, classBinding, dataTitle, iconGlyph. simpl.
  rewrite Hinc. reflexivity.
Qed.

Lemma render_depends_on_own_id_only_witness :
  (In (id annotate_props) ["labelling-rules"; "annotate"]
   <-> In (id annotate_props) (activeView annotate_props)) /\
  template (withActiveView annotate_props ["labelling-rules"; "annotate"])
  = template annotate_props.
Proof.
  assert (Hown : In (id annotate_props) ["labelling-rules"; "annotate"]
                 <-> In (id annotate_props) (activeView annotate_props))
    by (simpl; tauto).
  split; [exact Hown | ].
  exact (render_depends_on_own_id_only annotate_props
           ["labelling-rules"; "annotate"] Hown).
Defined.

(** *** Renders and clicks in any order *)

Lemma session_from_template (steps : list UserStep) :
  forall vm : Instance Props,
    session steps (template (props vm)) vm
    = (template (props vm),
       {| props := props vm;
          emitted := emitted vm
                     ++ repeat (mkEvent "button-action" [id (props vm)])
                          (clicks steps) |}).
Proof.
  induction steps as [|s rest IH]; intros vm.
  - simpl. rewrite app_nil_r. destruct vm; reflexivity.
  - destruct s.
    + cbn [session clicks]. rewrite render_run. apply IH.
    + cbn [session clicks]. rewrite click_template_run, onClick_run.
      set (vm' := {| props := props vm;
                     emitted := emitted vm
                                ++ [mkEvent "button-action" [id (props vm)]] |}).
      change (template (props vm)) with (template (props vm')).
      rewrite IH. subst vm'. cbn [props emitted repeat].
      rewrite <- app_assoc. reflexivity.
Qed.

(** X2: after any run of re-renders and clicks that starts from a fresh
    render, the props are the ones the run started with, the element on
    screen is the one first rendered, and the instance has emitted one
    "button-action" event with payload [id] per click and nothing else. *)
Theorem session_emits_one_event_per_click
  (steps : list UserStep) (vm : Instance Props) :
  let v := fst (render vm) in
  let ev := mkEvent "button-action" [id (props vm)] in
  fst (session steps v vm) = v /\
  props (snd (session steps v vm)) = props vm /\
  emitted (snd (session steps v vm)) = emitted vm ++ repeat ev (clicks steps) /\
  List.length (emitted (snd (session steps v vm)))
  = List.length (emitted vm) + clicks steps.
Proof.
  cbv zeta. rewrite render_run. cbn [fst].
  rewrite session_from_template. cbn [fst snd props emitted].
  repeat split.
  rewrite length_app, repeat_length. reflexivity.
Qed.

(** *** The two faces of the button *)

(** X3: the active class entry and the tooltip attribute exclude each
    other and one of them is always there: either the second computed
    entry is "active" and the element has no [data-title], or the entry is
    empty and [data-title] carries the tooltip. *)
Theorem active_entry_or_tooltip (p : Props) :
  let v := template p in
  (nth_error (class (dataOf v)) 1 = Some "active" /\
   attribute "data-title" v = None /\
   In (id p) (activeView p))
  \/
  (nth_error (class (dataOf v)) 1 = Some "" /\
   attribute "data-title" v = Some (tooltip p) /\
   ~ In (id p) (activeView p)).
Proof.
  cbv zeta. unfold attribute. simpl. unfold dataTitle.
  destruct (includes (activeView p) (id p)) eqn:Hinc; simpl.
  - left. apply includes_In in Hinc. repeat split; assumption.
  - right. apply includes_not_In in Hinc. repeat split; assumption.
Qed.

(** X4: for an active button the [tooltip] prop has no effect: any other
    tooltip text gives the same rendered element. *)
Theorem tooltip_ignored_when_active (p : Props) (tip : string) :
  In (id p) (activeView p) ->
  template (withTooltip p tip) = template p.
Proof.
  intros Hact. apply includes_In in Hact.
  unfold template, classBinding, dataTitle, iconGlyph. simpl.
  rewrite Hact. reflexivity.
Qed.

Lemma tooltip_ignored_when_active_witness :
  In (id annotate_props) (activeView annotate_props) /\
  template (withTooltip annotate_props "Something else")
  = template annotate_props.
Proof.
  assert (Hact : In (id annotate_props) (activeView annotate_props))
    by (simpl; left; reflexivity).
  split; [exact Hact | ].
  exact (tooltip_ignored_when_active annotate_props "Something else" Hact).
Defined.

(** *** What the class list tells *)

(** X5: among the types the validator accepts, the computed class list
    determines both the type and the active state: two buttons with valid
    types and equal class lists have the same type and agree on whether
    [activeView] holds their id. *)
Theorem class_list_determines_type_and_state (p q : Props) :
  type_validator (type p) = true ->
  type_validator (type q) = true ->
  class (dataOf (template p)) = class (dataOf (template q)) ->
  type p = type q /\
  (In (id p) (activeView p) <-> In (id q) (activeView q)).
Proof.
  intros Hp Hq Heq. simpl in Heq. injection Heq as Hty Hact.
  split.
  - apply type_validator_spec in Hp. apply type_validator_spec in Hq.
    destruct Hp as [Hp | [Hp | Hp]], Hq as [Hq | [Hq | Hq]];
      rewrite Hp, Hq in *; try reflexivity; discriminate Hty.
  - rewrite <- !includes_In.
    destruct (includes (activeView p) (id p)),
             (includes (activeView q) (id q));
      try discriminate Hact; tauto.
Qed.

Lemma class_list_determines_type_and_state_witness :
  type_validator (type annotate_props) = true /\
  type_validator (type (withTooltip annotate_props "Other")) = true /\
  type annotate_props = type (withTooltip annotate_props "Other").
Proof.
  split; [reflexivity | split; [reflexivity | ]].
  exact (proj1 (class_list_determines_type_and_state
                  annotate_props (withTooltip annotate_props "Other")
                  eq_refl eq_refl eq_refl)).
Defined.

Lemma lowerChar_not_upper (c : ascii) : isUpper (lowerChar c) = false.
Proof.
  destruct c as [b0 b1 b2 b3 b4 b5 b6 b7].
  destruct b0, b1, b2, b3, b4, b5, b6, b7; reflexivity.
Qed.

Lemma toLowerCase_no_upper (s : string) : hasUpper (toLowerCase s) = false.
Proof.
  induction s as [|c rest IH]; simpl.
  - reflexivity.
  - rewrite lowerChar_not_upper, IH. reflexivity.
Qed.

(** X6: whatever the props are, no class entry of the anchor, static or
    computed, holds an ASCII capital letter. *)
Theorem class_entries_have_no_capitals (p : Props) :
  forallb (fun entry => negb (hasUpper entry)) (classEntries (template p))
  = true.
Proof.
  unfold classEntries. simpl.
  rewrite toLowerCase_no_upper.
  destruct (includes (activeView p) (id p)); reflexivity.
Qed.

(** *** Events other than the click *)

(** X7: the anchor listens to the click and to nothing else: an event of
    any other name emits nothing and leaves the instance as it is. *)
Theorem other_events_do_nothing
  (event : string) (p : Props) (vm : Instance Props) :
  event <> "click" ->
  dispatch event (template p) vm = (tt, vm).
Proof.
  intros Hother. unfold dispatch, template.
  cbn [dataOf on runListeners].
  destruct (String.eqb_spec "click" event) as [Heq | Hne].
  - exfalso. apply Hother. symmetry. exact Heq.
  - reflexivity.
Qed.

Lemma other_events_do_nothing_witness :
  "mouseover" <> "click" /\
  dispatch "mouseover" (template annotate_props)
    {| props := annotate_props; emitted := [] |}
  = (tt, {| props := annotate_props; emitted := [] |}).
Proof.
  assert (Hother : "mouseover" <> "click") by discriminate.
  split; [exact Hother | ].
  exact (other_events_do_nothing "mouseover" annotate_props
           {| props := annotate_props; emitted := [] |} Hother).
Defined.
